(** * Client bindings of the PSVM estimator and of permutation variable importance

    A shallow embedding of [h2o-py/h2o/estimators/psvm.py] (the parameter
    container [H2OSupportVectorMachineEstimator]) and of
    [h2o-py/h2o/model/permutation_varimp.py] (the two free functions
    [permutation_varimp] and [plot_permutation_var_imp]).

    Python exceptions are results of type [result]; the calls a function makes
    to its collaborators (expression evaluator, list conversion, chart backend)
    are recorded in a trace that is returned next to the result. *)

From Stdlib Require Import ZArith QArith Lia.
From stdpp Require Import gmap strings list fin_maps.

#[local] Set Warnings "-register-all".

Local Open Scope string_scope.
Local Open Scope list_scope.
Local Open Scope Z_scope.

(** ** Python values *)

(** The classes that matter to the code are compared by identity
    ([type(frame) is not H2OFrame]).  A class is identified here by its name
    together with the chain of its base classes, ending at [object]. *)
Inductive pyclass : Type :=
| Base (name : string)
| Derived (name : string) (base : pyclass).

#[global] Instance pyclass_eq_dec : EqDecision pyclass.
Proof. solve_decision. Defined.

(** [issubclass c d]: [c] is [d] or has [d] among its base classes. *)
Fixpoint issubclass (c d : pyclass) : bool :=
  bool_decide (c = d) ||
  match c with
  | Derived _ b => issubclass b d
  | Base _ => false
  end.

(** [h2o.frame.H2OFrame]; the class itself is declared outside the two
    modules, only its identity is used. *)
Definition H2OFrame : pyclass := Base "H2OFrame".

(** The values a caller can hand to the bindings: [None], booleans, integers,
    floating-point numbers (carried as rationals; the bindings never compute on
    them), strings, lists and instances of a class (a frame is an instance of
    [H2OFrame], named by its key). *)
Inductive pyval : Type :=
| PNone
| PBool (b : bool)
| PInt (n : Z)
| PFloat (x : Q)
| PStr (s : string)
| PList (l : list pyval)
| PObj (cls : pyclass) (key : string).

(** [type(v)]; the builtin types derive from [object] directly, except
    [bool], which derives from [int]. *)
Definition type_of (v : pyval) : pyclass :=
  match v with
  | PNone => Base "NoneType"
  | PBool _ => Derived "bool" (Base "int")
  | PInt _ => Base "int"
  | PFloat _ => Base "float"
  | PStr _ => Base "str"
  | PList _ => Base "list"
  | PObj c _ => c
  end.

(** ** Exceptions and results *)

(** The type descriptions handed to [assert_is_type]: [None], [str], [bool],
    [int], [numeric], [Enum(...)], a list literal [[t]] and a class. *)
Inductive pytype : Type :=
| TNone
| TStr
| TBool
| TInt
| TNumeric
| TEnum (consts : list string)
| TList (elem : pytype)
| TClass (c : pyclass).

Inductive exn : Type :=
| H2OTypeError (var_name : string) (expected : list pytype) (actual : pyval)
    (* type-validation error: field, expected types, offending value *)
| H2OValueError (pname : string) (pvalue : pyval)
    (* "Unknown parameter %s = %r" % (pname, pvalue) *)
| FrameValueError (field : string)
    (* value error of the frame validation, naming the field *)
| ValueError (msg : string)
| KeyError (key : string).

Inductive result (A : Type) : Type :=
| Ok (a : A)
| Err (e : exn).
Arguments Ok {A} a.
Arguments Err {A} e.

(** Sequencing stops at the first exception. *)
#[global] Instance result_bind : MBind result := λ A B k r,
  match r with
  | Ok a => k a
  | Err e => Err e
  end.

(** ** The type checks of [h2o.utils.typechecks] *)

(** Modelled from the spec: the function [_check_type] behind
    [assert_is_type] lives in [h2o/utils/typechecks.py], which is not among the
    sources.  The declared semantic types are string, boolean, integer,
    floating-point number, enumerated string and list of strings; [numeric]
    admits integers and floating-point numbers, an enumeration admits exactly
    its listed strings, and [None] is the absent sentinel. *)
Fixpoint check_type (t : pytype) (v : pyval) : bool :=
  match t, v with
  | TNone, PNone => true
  | TStr, PStr _ => true
  | TBool, PBool _ => true
  | TInt, PInt _ => true
  | TNumeric, PInt _ => true
  | TNumeric, PFloat _ => true
  | TEnum consts, PStr s => bool_decide (s ∈ consts)
  | TList t', PList l => forallb (check_type t') l
  | TClass c, PObj d _ => issubclass d c
  | _, _ => false
  end.

(** Modelled from the spec: [assert_is_type(var, *types)] of
    [h2o/utils/typechecks.py] (not among the sources) passes when the value
    satisfies one of the listed types and otherwise fails with a
    type-validation error identifying the variable, the expected types and the
    offending value.  The variable name, which the Python helper recovers from
    the call site, is passed explicitly. *)
Definition assert_is_type (var_name : string) (var : pyval)
    (types : list pytype) : result unit :=
  if existsb (fun t => check_type t var) types then Ok tt
  else Err (H2OTypeError var_name types var).

(** Modelled from the spec: [H2OFrame._validate(param, name)] of
    [h2o/frame.py] (not among the sources) validates that the value is a
    reference to a data table and returns it, failing otherwise with a value
    error naming the field; the absent sentinel is passed through.  Local
    tabular objects, which the helper would convert, are not part of [pyval]. *)
Definition H2OFrame_validate (param : pyval) (name : string) : result pyval :=
  match param with
  | PNone => Ok PNone
  | PObj c _ => if issubclass c H2OFrame then Ok param
                else Err (FrameValueError name)
  | _ => Err (FrameValueError name)
  end.

(** ** Keyword arguments

    [**kwargs] is a Python dict: string keys, no key twice, iteration in
    insertion order.  It is an association list here; [dict_wf] states that no
    key occurs twice. *)
Definition kwargs_t : Type := list (string * pyval).

Definition dict_wf (d : kwargs_t) : Prop := NoDup d.*1.

(** [d.get(k)] as an option *)
Fixpoint dict_lookup (k : string) (d : kwargs_t) : option pyval :=
  match d with
  | [] => None
  | (k', v) :: d' => if String.eqb k' k then Some v else dict_lookup k d'
  end.

(** the dict left by [d.pop(k)] *)
Fixpoint dict_remove (k : string) (d : kwargs_t) : kwargs_t :=
  match d with
  | [] => []
  | (k', v) :: d' => if String.eqb k' k then d' else (k', v) :: dict_remove k d'
  end.

(** [d[k] = v]: an existing key keeps its place, a new key goes last. *)
Fixpoint dict_setitem (k : string) (v : pyval) (d : kwargs_t) : kwargs_t :=
  match d with
  | [] => [(k, v)]
  | (k', v') :: d' =>
      if String.eqb k' k then (k, v) :: d' else (k', v') :: dict_setitem k v d'
  end.

(** ** The estimator object *)

Module psvm.

(** The attributes of the object that the class reads or writes: the
    identifier [_id] and the parameter mapping [_parms]. *)
Record estimator : Type := Estimator {
  _id : pyval;
  _parms : gmap string pyval
}.

(** [self._parms[name] = value] *)
Definition parms_set (self : estimator) (name : string) (value : pyval)
    : estimator :=
  {| _id := _id self; _parms := <[name := value]> (_parms self) |}.

(** [self._parms.get(name)] *)
Definition parms_get (self : estimator) (name : string) : pyval :=
  default PNone (_parms self !! name).

(** The properties defined by the class, in the order of the file. *)
Inductive field : Type :=
| training_frame | validation_frame | response_column | ignored_columns
| ignore_const_cols | hyper_param | kernel_type | gamma | rank_ratio
| positive_weight | negative_weight | disable_training_metrics
| sv_threshold | fact_threshold | feasible_threshold
| surrogate_gap_threshold | mu_factor | max_iterations | seed.

Definition all_fields : list field :=
  [training_frame; validation_frame; response_column; ignored_columns;
   ignore_const_cols; hyper_param; kernel_type; gamma; rank_ratio;
   positive_weight; negative_weight; disable_training_metrics;
   sv_threshold; fact_threshold; feasible_threshold;
   surrogate_gap_threshold; mu_factor; max_iterations; seed].

Definition field_name (f : field) : string :=
  match f with
  | training_frame => "training_frame"
  | validation_frame => "validation_frame"
  | response_column => "response_column"
  | ignored_columns => "ignored_columns"
  | ignore_const_cols => "ignore_const_cols"
  | hyper_param => "hyper_param"
  | kernel_type => "kernel_type"
  | gamma => "gamma"
  | rank_ratio => "rank_ratio"
  | positive_weight => "positive_weight"
  | negative_weight => "negative_weight"
  | disable_training_metrics => "disable_training_metrics"
  | sv_threshold => "sv_threshold"
  | fact_threshold => "fact_threshold"
  | feasible_threshold => "feasible_threshold"
  | surrogate_gap_threshold => "surrogate_gap_threshold"
  | mu_factor => "mu_factor"
  | max_iterations => "max_iterations"
  | seed => "seed"
  end.

(** The property getters: each returns [self._parms.get("<name>")]. *)
Definition getter (f : field) (self : estimator) : pyval :=
  match f with
  | training_frame => parms_get self "training_frame"
  | validation_frame => parms_get self "validation_frame"
  | response_column => parms_get self "response_column"
  | ignored_columns => parms_get self "ignored_columns"
  | ignore_const_cols => parms_get self "ignore_const_cols"
  | hyper_param => parms_get self "hyper_param"
  | kernel_type => parms_get self "kernel_type"
  | gamma => parms_get self "gamma"
  | rank_ratio => parms_get self "rank_ratio"
  | positive_weight => parms_get self "positive_weight"
  | negative_weight => parms_get self "negative_weight"
  | disable_training_metrics => parms_get self "disable_training_metrics"
  | sv_threshold => parms_get self "sv_threshold"
  | fact_threshold => parms_get self "fact_threshold"
  | feasible_threshold => parms_get self "feasible_threshold"
  | surrogate_gap_threshold => parms_get self "surrogate_gap_threshold"
  | mu_factor => parms_get self "mu_factor"
  | max_iterations => parms_get self "max_iterations"
  | seed => parms_get self "seed"
  end.

(** The two setters that go through [H2OFrame._validate]. *)
Definition set_frame (name : string) (self : estimator) (value : pyval)
    : result estimator :=
  v ← H2OFrame_validate value name;
  Ok (parms_set self name v).

(** The setters that go through [assert_is_type(value, None, t)]. *)
Definition set_checked (name : string) (t : pytype) (self : estimator)
    (value : pyval) : result estimator :=
  _ ← assert_is_type name value [TNone; t];
  Ok (parms_set self name value).

(** The property setters, one case per [@<name>.setter] of the class. *)
Definition setter (f : field) (self : estimator) (value : pyval)
    : result estimator :=
  match f with
  | training_frame => set_frame "training_frame" self value
  | validation_frame => set_frame "validation_frame" self value
  | response_column => set_checked "response_column" TStr self value
  | ignored_columns => set_checked "ignored_columns" (TList TStr) self value
  | ignore_const_cols => set_checked "ignore_const_cols" TBool self value
  | hyper_param => set_checked "hyper_param" TNumeric self value
  | kernel_type => set_checked "kernel_type" (TEnum ["gaussian"]) self value
  | gamma => set_checked "gamma" TNumeric self value
  | rank_ratio => set_checked "rank_ratio" TNumeric self value
  | positive_weight => set_checked "positive_weight" TNumeric self value
  | negative_weight => set_checked "negative_weight" TNumeric self value
  | disable_training_metrics =>
      set_checked "disable_training_metrics" TBool self value
  | sv_threshold => set_checked "sv_threshold" TNumeric self value
  | fact_threshold => set_checked "fact_threshold" TNumeric self value
  | feasible_threshold => set_checked "feasible_threshold" TNumeric self value
  | surrogate_gap_threshold =>
      set_checked "surrogate_gap_threshold" TNumeric self value
  | mu_factor => set_checked "mu_factor" TNumeric self value
  | max_iterations => set_checked "max_iterations" TInt self value
  | seed => set_checked "seed" TInt self value
  end.

(** The property that the attribute name [pname] resolves to. *)
Definition property_of_name (pname : string) : option field :=
  find (λ f, String.eqb (field_name f) pname) all_fields.

(** [setattr(self, pname, pvalue)]: a name with a property runs its setter.
    (A name without one would become a plain instance attribute, which the
    class never reads; [names_list_properties] shows that [__init__] never
    gets there.) *)
Definition setattr (self : estimator) (pname : string) (pvalue : pyval)
    : result estimator :=
  match property_of_name pname with
  | Some f => setter f self pvalue
  | None => Ok self
  end.

Definition names_list : gset string :=
  list_to_set
    ["model_id"; "training_frame"; "validation_frame"; "response_column";
     "ignored_columns"; "ignore_const_cols"; "hyper_param"; "kernel_type";
     "gamma"; "rank_ratio"; "positive_weight"; "negative_weight";
     "disable_training_metrics"; "sv_threshold"; "fact_threshold";
     "feasible_threshold"; "surrogate_gap_threshold"; "mu_factor";
     "max_iterations"; "seed"].

(** [if "Lambda" in kwargs: kwargs["lambda_"] = kwargs.pop("Lambda")]: the
    lookup succeeds exactly when the key is present, and then gives the
    popped value. *)
Definition rename_Lambda (kwargs : kwargs_t) : kwargs_t :=
  match dict_lookup "Lambda" kwargs with
  | Some v => dict_setitem "lambda_" v (dict_remove "Lambda" kwargs)
  | None => kwargs
  end.

(** The body of the loop [for pname, pvalue in kwargs.items()]. *)
Definition init_step (self : estimator) (pname : string) (pvalue : pyval)
    : result estimator :=
  if String.eqb pname "model_id" then
    Ok {| _id := pvalue; _parms := <["model_id" := pvalue]> (_parms self) |}
  else if bool_decide (pname ∈ names_list) then
    (* Using setattr(...) will invoke type-checking of the arguments *)
    setattr self pname pvalue
  else Err (H2OValueError pname pvalue).

(** The loop.  The object is returned next to the outcome: an exception
    leaves it as it was when the exception was raised. *)
Fixpoint init_loop (self : estimator) (items : kwargs_t)
    : estimator * result unit :=
  match items with
  | [] => (self, Ok tt)
  | (pname, pvalue) :: rest =>
      match init_step self pname pvalue with
      | Ok self' => init_loop self' rest
      | Err e => (self, Err e)
      end
  end.

(** [__init__(self, **kwargs)]; [self] is the object as the initialiser of
    the base class [H2OEstimator] (not part of this module) has left it. *)
Definition __init__ (self : estimator) (kwargs : kwargs_t)
    : estimator * result unit :=
  let self := {| _id := _id self; _parms := ∅ |} in
  init_loop self (rename_Lambda kwargs).

(** *** The types the setters check *)

(** The type each setter hands to its check: the second type of
    [assert_is_type(value, None, t)], and [H2OFrame] for the two frame
    fields. *)
Definition declared_type (f : field) : pytype :=
  match f with
  | training_frame | validation_frame => TClass H2OFrame
  | response_column => TStr
  | ignored_columns => TList TStr
  | ignore_const_cols | disable_training_metrics => TBool
  | kernel_type => TEnum ["gaussian"]
  | max_iterations | seed => TInt
  | hyper_param | gamma | rank_ratio | positive_weight | negative_weight
  | sv_threshold | fact_threshold | feasible_threshold
  | surrogate_gap_threshold | mu_factor => TNumeric
  end.

(** The value is the absent sentinel or has the declared type. *)
Definition accepted (f : field) (value : pyval) : bool :=
  check_type TNone value || check_type (declared_type f) value.

(** The key under which a pair of [kwargs] is looked at by the loop. *)
Definition iterated_key (name : string) : string :=
  if String.eqb name "Lambda" then "lambda_" else name.

End psvm.

(** ** Permutation variable importance *)

Module permutation_varimp.

(** A cell of a local table: a string label or a number. *)
Inductive cell : Type :=
| CStr (s : string)
| CNum (x : Q).

(** A local table ([pandas.DataFrame] with the default integer index):
    column labels and the rows, each row aligned with the labels. *)
Record dataframe : Type := DataFrame {
  columns : list string;
  rows : list (list cell)
}.

(** [ExprNode(op, *args)] *)
Inductive expr : Type :=
| ExprNode (op : string) (args : list pyval).

(** The calls the module makes to its collaborators: the submission of an
    expression ([H2OFrame._expr]) and the materialisation of its result
    ([h2o.as_list]). *)
Inductive call : Type :=
| H2OFrame_expr (e : expr)
| as_list (e : expr).

Definition is_submission (c : call) : bool :=
  match c with H2OFrame_expr _ => true | as_list _ => false end.

Definition submissions (log : list call) : nat :=
  length (List.filter is_submission log).

(** What the collaborators answer: whether pandas can be used, and the local
    table that materialising a lazy frame gives. *)
Record environment : Type := Environment {
  can_use_pandas : bool;
  as_list_result : expr → dataframe
}.

(** The value returned: the lazy frame of the submitted expression, or the
    pandas table built from its materialisation. *)
Inductive importance_t : Type :=
| LazyFrame (e : expr)
| PandasFrame (pd : dataframe).

(** [permutation_varimp(model, frame, use_pandas, metric)]; [log] holds the
    collaborator calls made so far, the calls of this run are appended. *)
Definition permutation_varimp (env : environment) (model frame : pyval)
    (use_pandas : bool) (metric : pyval) (log : list call)
    : list call * result importance_t :=
  if bool_decide (type_of frame ≠ H2OFrame) then
    (log, Err (ValueError "Frame is not H2OFrame"))
  else
    let e := ExprNode "PermutationVarImp" [model; frame; metric] in
    let log := log ++ [H2OFrame_expr e] in
    if use_pandas && can_use_pandas env then
      let pd := as_list_result env e in
      (log ++ [as_list e], Ok (PandasFrame pd))
    else (log, Ok (LazyFrame e)).

(** *** Plotting *)

(** The draw commands sent to the chart backend, in the order of the calls. *)
Inductive draw : Type :=
| subplots (nrows ncols : Z) (figsize : Z * Z)
| barh (y : list Z) (width : list cell) (align : string) (height : Q)
    (color edgecolor : string)
| spine_set_visible (spine : string) (visible : bool)
| spine_set_color (spine : string) (color : string)
| yaxis_set_ticks_position (position : string)
| xaxis_set_ticks_position (position : string)
| yticks (ticks : list Z) (labels : list string)
| ylim (bottom top : Z)
| title (label : string) (fontsize : Z)
| show.

(** [importance.loc[2][col]]: the row labelled 2, then its entry under the
    column label; a missing row or label is a [KeyError]. *)
Fixpoint index_of (col : string) (cols : list string) : option nat :=
  match cols with
  | [] => None
  | c :: cols' => if String.eqb c col then Some 0%nat
                  else S <$> index_of col cols'
  end.

Definition loc (importance : dataframe) (r : nat) (col : string)
    : result cell :=
  match rows importance !! r with
  | None => Err (KeyError "2")
  | Some row =>
      match index_of col (columns importance) with
      | Some i =>
          match row !! i with
          | Some v => Ok v
          | None => Err (KeyError col)
          end
      | None => Err (KeyError col)
      end
  end.

(** The loop filling [importance_val]. *)
Fixpoint collect (importance : dataframe) (cols : list string)
    : result (list cell) :=
  match cols with
  | [] => Ok []
  | col :: cols' =>
      if String.eqb col "importance" then collect importance cols'
      else
        v ← loc importance 2 col;
        vs ← collect importance cols';
        Ok (v :: vs)
  end.

(** [range(n)[::-1]] *)
Definition reversed_range (n : nat) : list Z :=
  reverse (Z.of_nat <$> seq 0 n).

(** [min(l)] and [max(l)] raise on an empty sequence. *)
Definition py_min (l : list Z) : result Z :=
  match l with
  | [] => Err (ValueError "min() arg is an empty sequence")
  | x :: l' => Ok (foldl Z.min x l')
  end.

Definition py_max (l : list Z) : result Z :=
  match l with
  | [] => Err (ValueError "max() arg is an empty sequence")
  | x :: l' => Ok (foldl Z.max x l')
  end.

(** [plot_permutation_var_imp(importance, algo_name, metric, server)].
    [_get_matplotlib_pyplot], defined in [h2o/model/model_base.py], is taken
    as a parameter: it tells whether a chart backend is handed out. *)
Definition plot_permutation_var_imp (_get_matplotlib_pyplot : bool → bool)
    (importance : dataframe) (algo_name metric : string) (server : bool)
    : list draw * result unit :=
  match collect importance (columns importance) with
  | Err e => ([], Err e)
  | Ok importance_val =>
      let pos := reversed_range (length importance_val) in
      let num_of_features := (length importance_val `min` 10)%nat in
      let plt := _get_matplotlib_pyplot server in
      if negb plt then ([], Ok tt)
      else
        let drawn :=
          [subplots 1 1 (14, 10);
           barh (take num_of_features pos) (take num_of_features importance_val)
             "center" (8 # 10) "#1F77B4" "none";
           spine_set_visible "right" false;
           spine_set_visible "top" false;
           spine_set_color "bottom" "#7B7B7B";
           spine_set_color "left" "#7B7B7B";
           yaxis_set_ticks_position "left";
           xaxis_set_ticks_position "bottom";
           yticks (take num_of_features pos)
             (take num_of_features (drop 1 (columns importance)))] in
        match py_min (take num_of_features pos) with
        | Err e => (drawn, Err e)
        | Ok lo =>
            match py_max (take num_of_features pos) with
            | Err e => (drawn, Err e)
            | Ok hi =>
                let drawn := drawn ++
                  [ylim (lo - 1) (hi + 1);
                   title ("Permutation Variable Importance: " +:+ algo_name
                          +:+ " (" +:+ metric +:+ ")") 20] in
                if negb server then (drawn ++ [show], Ok tt)
                else (drawn, Ok tt)
            end
        end
  end.

(** *** What a chart shows *)

(** An importance table as the plot expects it: the first column holds
    string labels, every other column a number at row index 2. *)
Definition importance_table (t : dataframe) : Prop :=
  ∃ (label : string) (feats : list string) (lbl : string) (vals : list Q),
    columns t = label :: feats ∧
    rows t !! 2%nat = Some (CStr lbl :: (CNum <$> vals)) ∧
    length vals = length feats.

(** The bars of the chart: vertical position and value of each bar of the
    [barh] call. *)
Fixpoint bars (drawn : list draw) : list (Z * cell) :=
  match drawn with
  | [] => []
  | barh y width _ _ _ _ :: _ => zip y width
  | _ :: drawn' => bars drawn'
  end.

Definition cell_leb (a b : cell) : bool :=
  match a, b with
  | CNum x, CNum y => Qle_bool x y
  | _, _ => false
  end.

(** The bar drawn highest. *)
Fixpoint top_bar (bs : list (Z * cell)) : option (Z * cell) :=
  match bs with
  | [] => None
  | b :: bs' =>
      match top_bar bs' with
      | Some b' => if b.1 <? b'.1 then Some b' else Some b
      | None => Some b
      end
  end.

(** No bar has a larger value than the bar drawn highest. *)
Definition largest_bar_at_top (bs : list (Z * cell)) : bool :=
  match top_bar bs with
  | Some b => forallb (λ b', cell_leb b'.2 b.2) bs
  | None => true
  end.

(** The positions [n-1, n-2, ..., n-k] of the first [k] of [n] bars. *)
Definition top_positions (n k : nat) : list Z :=
  (λ i, Z.of_nat n - 1 - Z.of_nat i) <$> seq 0 k.

End permutation_varimp.

(** * Properties of the estimator *)

Section psvm_properties.
Import psvm.

Lemma set_checked_accepts name t self value :
  check_type TNone value || check_type t value = true →
  set_checked name t self value = Ok (parms_set self name value).
Proof.
  intros H. unfold set_checked, assert_is_type. cbn [existsb].
  rewrite orb_false_r, H. reflexivity.
Qed.

Lemma set_checked_rejects name t self value :
  check_type TNone value || check_type t value = false →
  set_checked name t self value = Err (H2OTypeError name [TNone; t] value).
Proof.
  intros H. unfold set_checked, assert_is_type. cbn [existsb].
  rewrite orb_false_r, H. reflexivity.
Qed.

Lemma set_frame_accepts name self value :
  check_type TNone value || check_type (TClass H2OFrame) value = true →
  set_frame name self value = Ok (parms_set self name value).
Proof.
  intros H. unfold set_frame.
  destruct value; cbn in H; try discriminate; cbn.
  - reflexivity.
  - rewrite H. reflexivity.
Qed.

Lemma setter_accepts f self value :
  accepted f value = true →
  setter f self value = Ok (parms_set self (field_name f) value).
Proof.
  unfold accepted. intros H.
  destruct f; cbn [setter field_name declared_type] in *;
    first [ by apply set_frame_accepts | by apply set_checked_accepts ].
Qed.

(** Whatever a setter stores is the value it was given, under the name of
    the field. *)
Lemma setter_stores f self value self' :
  setter f self value = Ok self' →
  self' = parms_set self (field_name f) value.
Proof.
  destruct (accepted f value) eqn:Hacc.
  - rewrite (setter_accepts _ _ _ Hacc). congruence.
  - unfold accepted in Hacc.
    destruct f; cbn [setter field_name declared_type] in *;
      try (rewrite (set_checked_rejects _ _ _ _ Hacc); discriminate).
    all: unfold set_frame; destruct value; cbn in *; try discriminate.
    all: rewrite Hacc; discriminate.
Qed.

Lemma getter_parms_set f self value :
  getter f (parms_set self (field_name f) value) = value.
Proof.
  destruct f; unfold getter, parms_get, parms_set; cbn [_parms field_name];
    by rewrite lookup_insert_eq.
Qed.

(** C2: for every field of the class and every value of the field's
    declared type, the setter succeeds and the getter then returns the value
    that was set. *)
Theorem psvm_set_get_roundtrip (f : field) (self : estimator) (value : pyval)
    (Hty : check_type (declared_type f) value = true) :
  ∃ self', setter f self value = Ok self' ∧ getter f self' = value.
Proof.
  exists (parms_set self (field_name f) value). split.
  - apply setter_accepts. unfold accepted. by rewrite Hty, orb_true_r.
  - apply getter_parms_set.
Qed.

Lemma psvm_set_get_roundtrip_witness :
  ∃ self', setter gamma (Estimator PNone ∅) (PFloat (1 # 2)) = Ok self' ∧
           getter gamma self' = PFloat (1 # 2).
Proof. apply (psvm_set_get_roundtrip gamma). reflexivity. Defined.

(** *** Construction *)

Lemma names_list_elem (pname : string) :
  pname ∈ names_list ↔
  pname = "model_id" ∨ ∃ f, field_name f = pname.
Proof.
  unfold names_list. rewrite elem_of_list_to_set. split.
  - intros H. repeat (apply elem_of_cons in H as [-> | H]);
      [ by left | .. | by apply elem_of_nil in H ];
      right;
      first [ by exists training_frame | by exists validation_frame
            | by exists response_column | by exists ignored_columns
            | by exists ignore_const_cols | by exists hyper_param
            | by exists kernel_type | by exists gamma | by exists rank_ratio
            | by exists positive_weight | by exists negative_weight
            | by exists disable_training_metrics | by exists sv_threshold
            | by exists fact_threshold | by exists feasible_threshold
            | by exists surrogate_gap_threshold | by exists mu_factor
            | by exists max_iterations | by exists seed ].
  - intros [-> | [f <-]]; [| destruct f]; cbn;
      repeat first [ by apply list_elem_of_here | apply list_elem_of_further ].
Qed.

Lemma property_of_field_name f : property_of_name (field_name f) = Some f.
Proof. by destruct f. Qed.

(** Every name of [names_list] other than "model_id" has a property, so
    [setattr] in [__init__] always runs a setter. *)
Lemma names_list_properties (pname : string) :
  pname ∈ names_list → pname ≠ "model_id" →
  ∃ f, field_name f = pname ∧ property_of_name pname = Some f.
Proof.
  rewrite names_list_elem. intros [-> | [f <-]] Hne; [done |].
  exists f. split; [done | apply property_of_field_name].
Qed.

(** A step that succeeds stores the pair it was given. *)
Lemma init_step_stores self pname pvalue self' :
  init_step self pname pvalue = Ok self' →
  _parms self' = <[pname := pvalue]> (_parms self).
Proof.
  unfold init_step.
  destruct (String.eqb_spec pname "model_id") as [-> | Hne].
  - intros [= <-]. reflexivity.
  - case_bool_decide as Hin; [| discriminate].
    destruct (names_list_properties _ Hin Hne) as (f & <- & Hp).
    unfold setattr. rewrite Hp. intros Hs.
    apply setter_stores in Hs. by subst self'.
Qed.

Lemma init_loop_app self pre post :
  init_loop self (pre ++ post) =
    match init_loop self pre with
    | (self', Ok _) => init_loop self' post
    | (self', Err e) => (self', Err e)
    end.
Proof.
  revert self. induction pre as [| [k v] pre IH]; intros self; cbn.
  - reflexivity.
  - destruct (init_step self k v) as [self' | e]; [apply IH | reflexivity].
Qed.

(** After a run of the loop without exception every pair is in the mapping,
    provided no key occurs twice. *)
Lemma init_loop_stored self items self' :
  NoDup items.*1 →
  init_loop self items = (self', Ok tt) →
  (∀ k v, (k, v) ∈ items → _parms self' !! k = Some v) ∧
  (∀ k, k ∉ items.*1 → _parms self' !! k = _parms self !! k).
Proof.
  revert self. induction items as [| [k0 v0] items IH]; intros self Hnd Hrun.
  - cbn in Hrun. injection Hrun as <-. split; [| done].
    intros k v H. by apply elem_of_nil in H.
  - cbn in Hnd, Hrun. apply NoDup_cons in Hnd as [Hk0 Hnd].
    destruct (init_step self k0 v0) as [self1 | e] eqn:Hstep; [| discriminate].
    apply init_step_stores in Hstep.
    destruct (IH self1 Hnd Hrun) as [Hin Hout]. split.
    + intros k v [[= -> ->] | Hkv]%elem_of_cons.
      * rewrite (Hout _ Hk0), Hstep. apply lookup_insert_eq.
      * by apply Hin.
    + intros k [Hne Hk]%not_elem_of_cons.
      rewrite (Hout _ Hk), Hstep. by apply lookup_insert_ne.
Qed.

Lemma dict_remove_keys k d x :
  x ∈ (dict_remove k d).*1 → x ∈ d.*1.
Proof.
  induction d as [| [k' v'] d IH]; cbn; [done |].
  destruct (String.eqb k' k); cbn.
  - apply list_elem_of_further.
  - intros [-> | H]%elem_of_cons; [apply list_elem_of_here |].
    apply list_elem_of_further, IH, H.
Qed.

Lemma dict_remove_wf k d : dict_wf d → dict_wf (dict_remove k d).
Proof.
  unfold dict_wf. induction d as [| [k' v'] d IH]; cbn; [done |].
  intros [Hk' Hnd]%NoDup_cons. destruct (String.eqb k' k); cbn; [done |].
  apply NoDup_cons. split; [| by apply IH].
  intros H. apply Hk'. eapply dict_remove_keys, H.
Qed.

Lemma dict_setitem_keys k v d x :
  x ∈ (dict_setitem k v d).*1 → x = k ∨ x ∈ d.*1.
Proof.
  induction d as [| [k' v'] d IH]; cbn.
  - intros [-> | H]%elem_of_cons; [by left | by apply elem_of_nil in H].
  - destruct (String.eqb_spec k' k) as [-> | Hne]; cbn.
    + intros H. by right.
    + intros [-> | H]%elem_of_cons.
      * right. apply list_elem_of_here.
      * destruct (IH H) as [-> | H']; [by left |].
        right. by apply list_elem_of_further.
Qed.

Lemma dict_setitem_wf k v d : dict_wf d → dict_wf (dict_setitem k v d).
Proof.
  unfold dict_wf. induction d as [| [k' v'] d IH]; cbn.
  - intros _. apply NoDup_singleton.
  - intros [Hk' Hnd]%NoDup_cons.
    destruct (String.eqb_spec k' k) as [-> | Hne]; cbn.
    + by apply NoDup_cons.
    + apply NoDup_cons. split; [| by apply IH].
      intros [-> | H]%dict_setitem_keys; [done | by apply Hk'].
Qed.

(** The renaming of "Lambda" keeps the keys distinct. *)
Lemma rename_Lambda_wf kwargs : dict_wf kwargs → dict_wf (rename_Lambda kwargs).
Proof.
  intros Hwf. unfold rename_Lambda.
  destruct (dict_lookup "Lambda" kwargs); [| done].
  by apply dict_setitem_wf, dict_remove_wf.
Qed.

(** C4: for every name outside [names_list], construction from the single
    pair [{name: v}] fails with the unknown-parameter error carrying the key
    the loop looked at (the name itself, or "lambda_" when the name is the
    alias "Lambda") and the value [v]; the parameter mapping of the object is
    empty and its identifier is untouched. *)
Theorem psvm_unknown_parameter (self : estimator) (name : string) (v : pyval)
    (Hname : name ∉ names_list) :
  __init__ self [(name, v)] =
    ({| _id := _id self; _parms := ∅ |},
     Err (H2OValueError (iterated_key name) v)).
Proof.
  unfold __init__, rename_Lambda, iterated_key. cbn [dict_lookup].
  destruct (String.eqb_spec name "Lambda") as [-> | HL].
  - reflexivity.
  - cbn [init_loop]. unfold init_step.
    destruct (String.eqb_spec name "model_id") as [-> | Hid].
    + exfalso. apply Hname. rewrite names_list_elem. by left.
    + by rewrite bool_decide_eq_false_2.
Qed.

Lemma psvm_unknown_parameter_witness :
  __init__ (Estimator PNone ∅) [("nfolds", PInt 3)] =
    (Estimator PNone ∅, Err (H2OValueError "nfolds" (PInt 3))).
Proof.
  apply (psvm_unknown_parameter (Estimator PNone ∅) "nfolds" (PInt 3)).
  rewrite names_list_elem. intros [H | [f H]]; [discriminate H |].
  destruct f; discriminate H.
Defined.

(** C5: construction from [{"Lambda": v}] and from [{"lambda_": v}] have the
    same outcome and leave the same object, for every value [v] and so for
    5: the alias is renamed before the loop, and both fail alike on the key
    "lambda_". *)
Theorem psvm_Lambda_alias (self : estimator) (v : pyval) :
  __init__ self [("Lambda", v)] = __init__ self [("lambda_", v)] ∧
  __init__ self [("Lambda", PInt 5)] =
    ({| _id := _id self; _parms := ∅ |}, Err (H2OValueError "lambda_" (PInt 5))).
Proof. split; reflexivity. Qed.

(** C8: the pairs are applied one at a time in iteration order; when the
    pair [(pname, pvalue)] raises after the pairs [pre] went through, the
    constructor raises that error, the pairs after it are not looked at, and
    every pair of [pre] is stored in the parameter mapping. *)
Theorem psvm_init_no_rollback (self est : estimator) (kwargs pre post : kwargs_t)
    (pname : string) (pvalue : pyval) (e : exn)
    (Hwf : dict_wf kwargs)
    (Hitems : rename_Lambda kwargs = pre ++ (pname, pvalue) :: post)
    (Hpre : init_loop {| _id := _id self; _parms := ∅ |} pre = (est, Ok tt))
    (Hfail : init_step est pname pvalue = Err e) :
  __init__ self kwargs = (est, Err e) ∧
  ∀ k v, (k, v) ∈ pre → _parms est !! k = Some v.
Proof.
  split.
  - unfold __init__. rewrite Hitems, init_loop_app, Hpre. cbn.
    by rewrite Hfail.
  - apply rename_Lambda_wf in Hwf. unfold dict_wf in Hwf.
    rewrite Hitems, fmap_app in Hwf. apply NoDup_app in Hwf as (Hnd & _ & _).
    by destruct (init_loop_stored _ _ _ Hnd Hpre).
Qed.

Lemma psvm_init_no_rollback_witness :
  __init__ (Estimator PNone ∅)
    [("gamma", PInt 5); ("seed", PStr "x"); ("mu_factor", PInt 1)] =
    (parms_set (Estimator PNone ∅) "gamma" (PInt 5),
     Err (H2OTypeError "seed" [TNone; TInt] (PStr "x"))) ∧
  ∀ k v, (k, v) ∈ [("gamma", PInt 5)] →
    _parms (parms_set (Estimator PNone ∅) "gamma" (PInt 5)) !! k = Some v.
Proof.
  apply (psvm_init_no_rollback (Estimator PNone ∅) _
           [("gamma", PInt 5); ("seed", PStr "x"); ("mu_factor", PInt 1)]
           [("gamma", PInt 5)] [("mu_factor", PInt 1)] "seed" (PStr "x")).
  - unfold dict_wf. apply (bool_decide_unpack _). vm_compute. exact I.
  - reflexivity.
  - reflexivity.
  - reflexivity.
Defined.

End psvm_properties.

(** * Properties of the importance request *)

Section varimp_properties.
Import permutation_varimp.

(** The guard compares the type of [frame] with [H2OFrame] itself: any other
    type raises before anything is submitted. *)
Lemma permutation_varimp_guard env model frame use_pandas metric log :
  type_of frame ≠ H2OFrame →
  permutation_varimp env model frame use_pandas metric log =
    (log, Err (ValueError "Frame is not H2OFrame")).
Proof.
  intros H. unfold permutation_varimp. by rewrite bool_decide_eq_true_2.
Qed.

Lemma submissions_app log log' :
  submissions (log ++ log') = (submissions log + submissions log')%nat.
Proof. unfold submissions. by rewrite List.filter_app, length_app. Qed.

(** C6: a [frame] whose type is not [H2OFrame] makes [permutation_varimp]
    raise the value error at once; the log of collaborator calls is unchanged,
    so nothing was submitted to the expression evaluator. *)
Theorem permutation_varimp_rejects_non_frame (env : environment)
    (model frame : pyval) (use_pandas : bool) (metric : pyval)
    (log : list call) (Hty : type_of frame ≠ H2OFrame) :
  permutation_varimp env model frame use_pandas metric log =
    (log, Err (ValueError "Frame is not H2OFrame")) ∧
  submissions (permutation_varimp env model frame use_pandas metric log).1 =
    submissions log.
Proof. by rewrite permutation_varimp_guard. Qed.

Lemma permutation_varimp_rejects_non_frame_witness :
  permutation_varimp (Environment true (λ _, DataFrame [] []))
      (PObj (Base "H2OGradientBoostingEstimator") "gbm_1")
      (PStr "not_a_table") true (PStr "mse") [] =
    ([], Err (ValueError "Frame is not H2OFrame")) ∧
  submissions
    (permutation_varimp (Environment true (λ _, DataFrame [] []))
       (PObj (Base "H2OGradientBoostingEstimator") "gbm_1")
       (PStr "not_a_table") true (PStr "mse") []).1 = submissions [].
Proof.
  apply (permutation_varimp_rejects_non_frame
           (Environment true (λ _, DataFrame [] []))
           (PObj (Base "H2OGradientBoostingEstimator") "gbm_1")
           (PStr "not_a_table") true (PStr "mse") []).
  discriminate.
Defined.

(** C10: the guard is on the exact type: an instance of a proper subclass of
    [H2OFrame] is rejected with the value error and nothing is submitted. *)
Theorem permutation_varimp_rejects_subclass (env : environment)
    (model : pyval) (cls : pyclass) (key : string) (use_pandas : bool)
    (metric : pyval) (log : list call)
    (Hsub : issubclass cls H2OFrame = true) (Hproper : cls ≠ H2OFrame) :
  permutation_varimp env model (PObj cls key) use_pandas metric log =
    (log, Err (ValueError "Frame is not H2OFrame")).
Proof. by apply permutation_varimp_guard. Qed.

Lemma permutation_varimp_rejects_subclass_witness :
  permutation_varimp (Environment true (λ _, DataFrame [] []))
      (PObj (Base "H2OGradientBoostingEstimator") "gbm_1")
      (PObj (Derived "MyFrame" H2OFrame) "py_1") true (PStr "mse") [] =
    ([], Err (ValueError "Frame is not H2OFrame")).
Proof.
  apply (permutation_varimp_rejects_subclass
           (Environment true (λ _, DataFrame [] []))
           (PObj (Base "H2OGradientBoostingEstimator") "gbm_1")
           (Derived "MyFrame" H2OFrame) "py_1" true (PStr "mse") []).
  - reflexivity.
  - discriminate.
Defined.

(** C7: a call whose [frame] is an [H2OFrame] submits exactly one expression,
    the tagged request ("PermutationVarImp", model, frame, metric), whatever
    [use_pandas] is; a second identical call submits once more. *)
Theorem permutation_varimp_submits_once (env : environment)
    (model frame : pyval) (use_pandas : bool) (metric : pyval)
    (log : list call) (Hty : type_of frame = H2OFrame) :
  let e := ExprNode "PermutationVarImp" [model; frame; metric] in
  let run := permutation_varimp env model frame use_pandas metric in
  (∃ r, run log =
     (log ++ H2OFrame_expr e ::
        (if use_pandas && can_use_pandas env then [as_list e] else []),
      Ok r)) ∧
  submissions (run log).1 = S (submissions log) ∧
  submissions (run (run log).1).1 = S (S (submissions log)).
Proof.
  intros e run.
  assert (Hrun : ∀ l, ∃ r, run l =
    (l ++ H2OFrame_expr e ::
       (if use_pandas && can_use_pandas env then [as_list e] else []),
     Ok r)).
  { intros l. unfold run, permutation_varimp.
    rewrite bool_decide_eq_false_2 by (intros H; by apply H).
    fold e. destruct (use_pandas && can_use_pandas env).
    - rewrite <- app_assoc. eauto.
    - eauto. }
  split; [apply Hrun |].
  destruct (Hrun log) as [r1 Hr1]. rewrite Hr1. cbn [fst].
  destruct (Hrun (log ++ H2OFrame_expr e ::
       (if use_pandas && can_use_pandas env then [as_list e] else [])))
    as [r2 Hr2].
  rewrite Hr2. cbn [fst]. rewrite !submissions_app.
  destruct (use_pandas && can_use_pandas env); cbn; lia.
Qed.

Lemma permutation_varimp_submits_once_witness :
  submissions
    (permutation_varimp (Environment true (λ _, DataFrame [] []))
       (PObj (Base "H2OGradientBoostingEstimator") "gbm_1")
       (PObj H2OFrame "py_1") false (PStr "mse") []).1 = 1%nat.
Proof.
  apply (permutation_varimp_submits_once
           (Environment true (λ _, DataFrame [] []))
           (PObj (Base "H2OGradientBoostingEstimator") "gbm_1")
           (PObj H2OFrame "py_1") false (PStr "mse") []).
  reflexivity.
Defined.

End varimp_properties.

(** * Properties of the plot *)

Section plot_properties.
Import permutation_varimp.

Lemma index_of_elem (col : string) (cols : list string) :
  col ∈ cols → ∃ i, index_of col cols = Some i ∧ (i < length cols)%nat.
Proof.
  induction cols as [| c cols IH]; intros Hin.
  - by apply elem_of_nil in Hin.
  - cbn. destruct (String.eqb_spec c col) as [-> | Hne].
    + exists 0%nat. split; [done | lia].
    + apply elem_of_cons in Hin as [-> | Hin]; [done |].
      destruct (IH Hin) as (i & -> & Hi). exists (S i). split; [done | lia].
Qed.

Lemma index_of_NoDup (cols : list string) (i : nat) (col : string) :
  NoDup cols → cols !! i = Some col → index_of col cols = Some i.
Proof.
  intros Hnd. revert i. induction Hnd as [| c cols Hc Hnd IH]; intros i Hi.
  - by rewrite lookup_nil in Hi.
  - destruct i as [| i]; cbn in *.
    + injection Hi as ->. by rewrite String.eqb_refl.
    + destruct (String.eqb_spec c col) as [-> | Hne].
      * exfalso. apply Hc. by eapply list_elem_of_lookup_2.
      * by rewrite (IH _ Hi).
Qed.

(** The loop over the columns cannot fail on a table that has a row 2 with
    an entry for every column. *)
Lemma collect_total (t : dataframe) (row : list cell) (cols : list string) :
  rows t !! 2%nat = Some row →
  (length (columns t) ≤ length row)%nat →
  cols ⊆ columns t →
  ∃ vs, collect t cols = Ok vs.
Proof.
  intros Hrow Hlen. induction cols as [| col cols IH]; intros Hsub.
  - by exists [].
  - cbn. destruct (IH ltac:(set_solver)) as [vs Hvs].
    destruct (String.eqb col "importance"); [by exists vs |].
    destruct (index_of_elem col (columns t) ltac:(set_solver)) as (i & Hi & Hlt).
    destruct (lookup_lt_is_Some_2 row i ltac:(lia)) as [v Hv].
    unfold loc. rewrite Hrow, Hi, Hv. cbn. rewrite Hvs. cbn.
    by exists (v :: vs).
Qed.

(** C9: on an importance table, when no chart backend is handed out, the
    plot returns normally and sends no draw command. *)
Theorem plot_without_backend (_get_matplotlib_pyplot : bool → bool)
    (importance : dataframe) (algo_name metric : string) (server : bool)
    (Htable : importance_table importance)
    (Hplt : _get_matplotlib_pyplot server = false) :
  plot_permutation_var_imp _get_matplotlib_pyplot importance algo_name metric
    server = ([], Ok tt).
Proof.
  destruct Htable as (label & feats & lbl & vals & Hcols & Hrow & Hlen).
  destruct (collect_total importance _ (columns importance) Hrow) as [vs Hvs].
  - rewrite Hcols. cbn. rewrite length_fmap. lia.
  - done.
  - unfold plot_permutation_var_imp. by rewrite Hvs, Hplt.
Qed.

Lemma plot_without_backend_witness :
  plot_permutation_var_imp (λ _, false)
    (DataFrame ["importance"; "f1"; "f2"]
       [[CStr "Relative Importance"; CNum 4; CNum 2];
        [CStr "Scaled Importance"; CNum 1; CNum (1 # 2)];
        [CStr "Percentage"; CNum (2 # 3); CNum (1 # 3)]])
    "gbm" "mse" false = ([], Ok tt).
Proof.
  apply plot_without_backend.
  - exists "importance", ["f1"; "f2"], "Percentage", [2 # 3; 1 # 3]%Q.
    repeat split; reflexivity.
  - reflexivity.
Defined.

(** [range(n)[::-1]] counts down from [n-1]. *)
Lemma reversed_range_S (n : nat) :
  reversed_range (S n) = Z.of_nat n :: reversed_range n.
Proof.
  unfold reversed_range. rewrite seq_S, fmap_app, reverse_app. reflexivity.
Qed.

Lemma top_positions_S (n k : nat) :
  top_positions (S n) (S k) = Z.of_nat n :: top_positions n k.
Proof.
  unfold top_positions. cbn [seq fmap list_fmap]. f_equal; [lia |].
  rewrite <- seq_shift, <- list_fmap_compose. apply list_fmap_ext.
  intros _ i _. cbn. lia.
Qed.

Lemma take_reversed_range (n k : nat) :
  (k ≤ n)%nat → take k (reversed_range n) = top_positions n k.
Proof.
  revert n. induction k as [| k IH]; intros n Hk.
  - by rewrite take_0.
  - destruct n as [| n]; [lia |].
    rewrite reversed_range_S, top_positions_S. cbn. f_equal. apply IH. lia.
Qed.

Lemma top_positions_elem (n k : nat) (p : Z) :
  p ∈ top_positions n k → Z.of_nat n - Z.of_nat k ≤ p < Z.of_nat n.
Proof.
  unfold top_positions. intros (i & -> & Hi)%list_elem_of_fmap.
  apply elem_of_seq in Hi. lia.
Qed.

Lemma foldl_min_lower (l : list Z) (a m : Z) :
  m ≤ a → Forall (λ z, m ≤ z) l → m ∈ a :: l → foldl Z.min a l = m.
Proof.
  revert a. induction l as [| x l IH]; intros a Ha Hall Hin; cbn.
  - apply elem_of_cons in Hin as [-> | Hin]; [done | by apply elem_of_nil in Hin].
  - apply Forall_cons in Hall as [Hx Hall]. apply IH; [lia | done |].
    apply elem_of_cons in Hin as [-> | Hin].
    + replace (Z.min a x) with a by lia. apply list_elem_of_here.
    + apply elem_of_cons in Hin as [-> | Hin].
      * replace (Z.min a x) with x by lia. apply list_elem_of_here.
      * by apply list_elem_of_further.
Qed.

Lemma foldl_max_first (l : list Z) (a : Z) :
  Forall (λ z, z ≤ a) l → foldl Z.max a l = a.
Proof.
  induction l as [| x l IH]; intros Hall; cbn; [done |].
  apply Forall_cons in Hall as [Hx Hall].
  replace (Z.max a x) with a by lia. by apply IH.
Qed.

(** The axis bounds of the first [k] of [n] bars. *)
Lemma py_min_top_positions (n k : nat) :
  (0 < k ≤ n)%nat → py_min (top_positions n k) = Ok (Z.of_nat n - Z.of_nat k).
Proof.
  intros Hk. destruct (top_positions n k) as [| a l] eqn:Hpos.
  - apply (f_equal length) in Hpos. unfold top_positions in Hpos.
    rewrite length_fmap, length_seq in Hpos. cbn in Hpos. lia.
  - cbn. f_equal.
    assert (Hlow : ∀ p, p ∈ a :: l → Z.of_nat n - Z.of_nat k ≤ p).
    { intros p Hp. rewrite <- Hpos in Hp. apply top_positions_elem in Hp. lia. }
    apply foldl_min_lower.
    + apply Hlow, list_elem_of_here.
    + apply Forall_forall. intros p Hp. by apply Hlow, list_elem_of_further.
    + rewrite <- Hpos. unfold top_positions. apply list_elem_of_fmap.
      exists (k - 1)%nat. split; [lia |]. apply elem_of_seq. lia.
Qed.

Lemma top_positions_cons (n k : nat) :
  (0 < k)%nat →
  ∃ l, top_positions n k = (Z.of_nat n - 1) :: l ∧
       Forall (λ p, p < Z.of_nat n - 1) l.
Proof.
  intros Hk. destruct k as [| k]; [lia |].
  unfold top_positions. cbn [seq fmap list_fmap]. eexists. split.
  - f_equal. lia.
  - apply Forall_forall. intros p (i & -> & Hi)%list_elem_of_fmap.
    apply elem_of_seq in Hi. lia.
Qed.

Lemma py_max_top_positions (n k : nat) :
  (0 < k)%nat → py_max (top_positions n k) = Ok (Z.of_nat n - 1).
Proof.
  intros Hk. destruct (top_positions_cons n k Hk) as (l & -> & Hall).
  cbn. f_equal. apply foldl_max_first.
  eapply Forall_impl; [exact Hall |]. cbn. lia.
Qed.

Lemma collect_Forall2 (t : dataframe) (cols : list string) (ws : list cell) :
  Forall2 (λ col w, col ≠ "importance" ∧ loc t 2 col = Ok w) cols ws →
  collect t cols = Ok ws.
Proof.
  induction 1 as [| col w cols ws [Hne Hloc] _ IH]; cbn; [done |].
  destruct (String.eqb_spec col "importance") as [-> | _]; [done |].
  by rewrite Hloc, IH.
Qed.

(** On a table whose label column is the one named "importance", the loop
    collects the row-2 values of the feature columns, in column order. *)
Lemma collect_features (t : dataframe) (feats : list string) (lbl : string)
    (vals : list Q) :
  columns t = "importance" :: feats →
  "importance" ∉ feats → NoDup feats →
  rows t !! 2%nat = Some (CStr lbl :: (CNum <$> vals)) →
  length vals = length feats →
  collect t (columns t) = Ok (CNum <$> vals).
Proof.
  intros Hcols Himp Hnd Hrow Hlen.
  rewrite Hcols. cbn [collect]. rewrite String.eqb_refl.
  apply collect_Forall2, Forall2_same_length_lookup_2.
  - by rewrite length_fmap.
  - intros i col w Hcol Hw.
    assert (Hne : col ≠ "importance").
    { intros ->. apply Himp. by eapply list_elem_of_lookup_2. }
    split; [done |]. unfold loc. rewrite Hrow, Hcols. cbn [index_of].
    destruct (String.eqb_spec "importance" col) as [<- | _]; [done |].
    rewrite (index_of_NoDup _ _ _ Hnd Hcol). cbn -[lookup].
    change ((CStr lbl :: (CNum <$> vals)) !! S i) with ((CNum <$> vals) !! i).
    by rewrite Hw.
Qed.

Lemma top_bar_elem (bs : list (Z * cell)) (b : Z * cell) :
  top_bar bs = Some b → b ∈ bs.
Proof.
  revert b. induction bs as [| b0 bs IH]; intros b; cbn; [done |].
  destruct (top_bar bs) as [b' |].
  - destruct (b0.1 <? b'.1); intros [= <-].
    + by apply list_elem_of_further, IH.
    + apply list_elem_of_here.
  - intros [= <-]. apply list_elem_of_here.
Qed.

(** When every other bar is lower, the first bar is the one drawn highest. *)
Lemma top_bar_first (b : Z * cell) (bs : list (Z * cell)) :
  Forall (λ b', b'.1 < b.1) bs → top_bar (b :: bs) = Some b.
Proof.
  intros Hall. cbn. destruct (top_bar bs) as [b' |] eqn:Htop; [| done].
  apply top_bar_elem in Htop. rewrite Forall_forall in Hall.
  specialize (Hall _ Htop). by rewrite (proj2 (Z.ltb_ge _ _)) by lia.
Qed.

(** C1: the claim wants the largest-valued bar at the top, and so does the
    comment above the position assignment in the source.  On the table with
    columns importance, f1, f2, f3 and row 2 = (_, 5, 3, 9) the plot draws
    the bars at heights 2, 1, 0 in column order: the bar drawn highest has
    value 5, while the largest value, 9, is drawn lowest. *)
Lemma plot_largest_bar_not_at_top :
  let t := DataFrame ["importance"; "f1"; "f2"; "f3"]
             [[CStr "Relative Importance"; CNum 10; CNum 6; CNum 18];
              [CStr "Scaled Importance"; CNum 1; CNum 1; CNum 1];
              [CStr "Percentage"; CNum 5; CNum 3; CNum 9]] in
  let chart := (plot_permutation_var_imp (λ _, true) t "gbm" "mse" false).1 in
  importance_table t ∧
  bars chart = [(2, CNum 5); (1, CNum 3); (0, CNum 9)] ∧
  top_bar (bars chart) = Some (2, CNum 5) ∧
  largest_bar_at_top (bars chart) = false.
Proof.
  cbv zeta. split; [| by vm_compute].
  exists "importance", ["f1"; "f2"; "f3"], "Percentage", [5; 3; 9]%Q.
  repeat split; reflexivity.
Qed.

End plot_properties.

(** * Further properties of the estimator *)

Section psvm_store.
Import psvm.

Lemma field_name_inj (f g : field) : field_name f = field_name g → f = g.
Proof.
  intros H. apply (f_equal property_of_name) in H.
  rewrite !property_of_field_name in H. congruence.
Qed.

Lemma getter_parms_get (f : field) (self : estimator) :
  getter f self = parms_get self (field_name f).
Proof. by destruct f. Qed.

(** A setter succeeds only on a value that is the absent sentinel or has the
    declared type. *)
Lemma setter_ok_accepted (f : field) (self self' : estimator) (value : pyval) :
  setter f self value = Ok self' → accepted f value = true.
Proof.
  destruct (accepted f value) eqn:Hacc; [done |]. unfold accepted in Hacc.
  destruct f; cbn [setter field_name declared_type] in *;
    try (rewrite (set_checked_rejects _ _ _ _ Hacc); discriminate).
  all: unfold set_frame; destruct value; cbn in *; try discriminate.
  all: rewrite Hacc; discriminate.
Qed.

(** X1: a setter that succeeds changes the field it belongs to and nothing
    else: every other property reads as before and the identifier of the
    object is untouched. *)
Theorem psvm_setter_other_fields (f : field) (self self' : estimator)
    (value : pyval) (Hset : setter f self value = Ok self') :
  (∀ g, g ≠ f → getter g self' = getter g self) ∧ _id self' = _id self.
Proof.
  apply setter_stores in Hset. subst self'. split; [| done].
  intros g Hg. rewrite !getter_parms_get. unfold parms_get, parms_set. cbn.
  rewrite lookup_insert_ne; [done |].
  intros H. apply Hg. symmetry. by apply field_name_inj.
Qed.

Lemma psvm_setter_other_fields_witness :
  (∀ g, g ≠ seed →
     getter g (parms_set (Estimator (PStr "m1") ∅) "seed" (PInt 42)) =
     getter g (Estimator (PStr "m1") ∅)) ∧
  _id (parms_set (Estimator (PStr "m1") ∅) "seed" (PInt 42)) = PStr "m1".
Proof.
  apply (psvm_setter_other_fields seed (Estimator (PStr "m1") ∅) _ (PInt 42)).
  reflexivity.
Defined.

(** X2: setting a field twice keeps the last value only: the object is the
    one that setting the second value alone gives. *)
Theorem psvm_setter_last_wins (f : field) (self s1 s2 : estimator)
    (v1 v2 : pyval)
    (Hfst : setter f self v1 = Ok s1) (Hsnd : setter f s1 v2 = Ok s2) :
  setter f self v2 = Ok s2 ∧ getter f s2 = v2.
Proof.
  pose proof (setter_ok_accepted _ _ _ _ Hsnd) as Hacc.
  apply setter_stores in Hfst, Hsnd. subst s1 s2. split.
  - rewrite (setter_accepts _ self _ Hacc). f_equal.
    unfold parms_set. cbn. by rewrite insert_insert_eq.
  - apply getter_parms_set.
Qed.

Lemma psvm_setter_last_wins_witness :
  setter gamma (Estimator PNone ∅) (PFloat (1 # 4)) =
    Ok (parms_set (parms_set (Estimator PNone ∅) "gamma" (PInt 2))
          "gamma" (PFloat (1 # 4))) ∧
  getter gamma
    (parms_set (parms_set (Estimator PNone ∅) "gamma" (PInt 2))
       "gamma" (PFloat (1 # 4))) = PFloat (1 # 4).
Proof.
  apply (psvm_setter_last_wins gamma (Estimator PNone ∅)
           (parms_set (Estimator PNone ∅) "gamma" (PInt 2)) _
           (PInt 2) (PFloat (1 # 4))); reflexivity.
Defined.

(** X3: setters of different fields commute: when setting [f] and then [g]
    succeeds, setting [g] and then [f] succeeds as well and gives the same
    object. *)
Theorem psvm_setters_commute (f g : field) (self s1 s2 : estimator)
    (v w : pyval) (Hfg : f ≠ g)
    (Hf : setter f self v = Ok s1) (Hg : setter g s1 w = Ok s2) :
  ∃ s1', setter g self w = Ok s1' ∧ setter f s1' v = Ok s2.
Proof.
  pose proof (setter_ok_accepted _ _ _ _ Hf) as Hv.
  pose proof (setter_ok_accepted _ _ _ _ Hg) as Hw.
  apply setter_stores in Hf, Hg. subst s1 s2.
  exists (parms_set self (field_name g) w). split.
  - by apply setter_accepts.
  - rewrite (setter_accepts _ _ _ Hv). f_equal. unfold parms_set. cbn.
    f_equal. apply insert_insert_ne. intros H. by apply Hfg, field_name_inj.
Qed.

Lemma psvm_setters_commute_witness :
  ∃ s1', setter seed (Estimator PNone ∅) (PInt 7) = Ok s1' ∧
         setter kernel_type s1' (PStr "gaussian") =
           Ok (parms_set (parms_set (Estimator PNone ∅) "kernel_type"
                            (PStr "gaussian")) "seed" (PInt 7)).
Proof.
  apply (psvm_setters_commute kernel_type seed (Estimator PNone ∅)
           (parms_set (Estimator PNone ∅) "kernel_type" (PStr "gaussian")) _
           (PStr "gaussian") (PInt 7)).
  - discriminate.
  - reflexivity.
  - reflexivity.
Defined.

End psvm_store.

(** * Further properties of construction *)

Section psvm_construction.
Import psvm.

Lemma dict_lookup_None (k : string) (d : kwargs_t) :
  dict_lookup k d = None ↔ k ∉ d.*1.
Proof.
  induction d as [| [k' v'] d IH]; cbn.
  - split; [intros _ H; by apply elem_of_nil in H | done].
  - destruct (String.eqb_spec k' k) as [-> | Hne].
    + split; [done | intros H; exfalso; apply H, list_elem_of_here].
    + rewrite IH, not_elem_of_cons. split; [| by intros [_ H]].
      intros H. split; [congruence | done].
Qed.

Lemma dict_lookup_Some (k : string) (v : pyval) (d : kwargs_t) :
  dict_wf d → dict_lookup k d = Some v ↔ (k, v) ∈ d.
Proof.
  unfold dict_wf. induction d as [| [k' v'] d IH]; cbn; intros Hnd.
  - split; [done | intros H; by apply elem_of_nil in H].
  - apply NoDup_cons in Hnd as [Hk' Hnd].
    destruct (String.eqb_spec k' k) as [-> | Hne].
    + split.
      * intros [= ->]. apply list_elem_of_here.
      * intros [[= ->] | H]%elem_of_cons; [done |].
        exfalso. apply Hk'. by apply (list_elem_of_fmap_2 fst) in H.
    + rewrite (IH Hnd), elem_of_cons. split; [by right |].
      intros [[= -> ->] | H]; done.
Qed.

Lemma dict_lookup_remove_ne (k k' : string) (d : kwargs_t) :
  k' ≠ k → dict_lookup k' (dict_remove k d) = dict_lookup k' d.
Proof.
  intros Hne. induction d as [| [k0 v0] d IH]; cbn; [done |].
  destruct (String.eqb_spec k0 k) as [-> | Hk0]; cbn.
  - by destruct (String.eqb_spec k k').
  - by rewrite IH.
Qed.

Lemma dict_lookup_remove_eq (k : string) (d : kwargs_t) :
  dict_wf d → dict_lookup k (dict_remove k d) = None.
Proof.
  unfold dict_wf. induction d as [| [k0 v0] d IH]; cbn; [done |].
  intros [Hk0 Hnd]%NoDup_cons.
  destruct (String.eqb_spec k0 k) as [-> | Hne]; cbn.
  - by apply dict_lookup_None.
  - destruct (String.eqb_spec k0 k); [done | by apply IH].
Qed.

Lemma dict_lookup_setitem_eq (k : string) (v : pyval) (d : kwargs_t) :
  dict_lookup k (dict_setitem k v d) = Some v.
Proof.
  induction d as [| [k0 v0] d IH]; cbn.
  - by rewrite String.eqb_refl.
  - destruct (String.eqb_spec k0 k) as [-> | Hne]; cbn.
    + by rewrite String.eqb_refl.
    + by destruct (String.eqb_spec k0 k).
Qed.

Lemma dict_lookup_setitem_ne (k k' : string) (v : pyval) (d : kwargs_t) :
  k' ≠ k → dict_lookup k' (dict_setitem k v d) = dict_lookup k' d.
Proof.
  intros Hne. induction d as [| [k0 v0] d IH]; cbn.
  - by destruct (String.eqb_spec k k').
  - destruct (String.eqb_spec k0 k) as [-> | Hk0]; cbn.
    + by destruct (String.eqb_spec k k').
    + by rewrite IH.
Qed.

Lemma dict_setitem_new (k : string) (v : pyval) (d : kwargs_t) :
  k ∉ d.*1 → dict_setitem k v d = d ++ [(k, v)].
Proof.
  induction d as [| [k0 v0] d IH]; cbn; [done |].
  intros [Hne Hk]%not_elem_of_cons.
  destruct (String.eqb_spec k0 k) as [-> | _]; [done |]. by rewrite IH.
Qed.

(** X7: when the dict has the key "Lambda", the renaming removes it, binds
    "lambda_" to its value (overwriting a "lambda_" that was supplied too)
    and leaves the value of every other key alone. *)
Theorem rename_Lambda_lookup (kwargs : kwargs_t) (v : pyval)
    (Hwf : dict_wf kwargs) (HL : dict_lookup "Lambda" kwargs = Some v) :
  dict_lookup "Lambda" (rename_Lambda kwargs) = None ∧
  dict_lookup "lambda_" (rename_Lambda kwargs) = Some v ∧
  ∀ k, k ≠ "Lambda" → k ≠ "lambda_" →
    dict_lookup k (rename_Lambda kwargs) = dict_lookup k kwargs.
Proof.
  unfold rename_Lambda. rewrite HL. split; [| split].
  - rewrite dict_lookup_setitem_ne by done. by apply dict_lookup_remove_eq.
  - apply dict_lookup_setitem_eq.
  - intros k H1 H2. rewrite dict_lookup_setitem_ne by done.
    by apply dict_lookup_remove_ne.
Qed.

Lemma rename_Lambda_lookup_witness :
  dict_lookup "Lambda"
    (rename_Lambda [("lambda_", PInt 1); ("Lambda", PInt 5); ("seed", PInt 3)])
    = None ∧
  dict_lookup "lambda_"
    (rename_Lambda [("lambda_", PInt 1); ("Lambda", PInt 5); ("seed", PInt 3)])
    = Some (PInt 5) ∧
  ∀ k, k ≠ "Lambda" → k ≠ "lambda_" →
    dict_lookup k
      (rename_Lambda [("lambda_", PInt 1); ("Lambda", PInt 5); ("seed", PInt 3)])
    = dict_lookup k [("lambda_", PInt 1); ("Lambda", PInt 5); ("seed", PInt 3)].
Proof.
  apply (rename_Lambda_lookup
           [("lambda_", PInt 1); ("Lambda", PInt 5); ("seed", PInt 3)] (PInt 5)).
  - unfold dict_wf. apply (bool_decide_unpack _). vm_compute. exact I.
  - reflexivity.
Defined.

(** A key outside [names_list] stops the loop with an exception: at that
    key, or at a pair before it. *)
Lemma init_loop_bad_key (self : estimator) (items : kwargs_t) (k : string) :
  k ∈ items.*1 → k ∉ names_list →
  ∃ est e, init_loop self items = (est, Err e).
Proof.
  intros Hin Hbad. revert self.
  induction items as [| [k0 v0] items IH]; intros self.
  - by apply elem_of_nil in Hin.
  - cbn [init_loop]. destruct (init_step self k0 v0) as [self1 | e] eqn:Hstep;
      [| by eauto].
    cbn in Hin. apply elem_of_cons in Hin as [-> | Hin]; [| by apply IH].
    exfalso. unfold init_step in Hstep.
    destruct (String.eqb_spec k0 "model_id") as [-> | _].
    + apply Hbad, names_list_elem. by left.
    + by rewrite bool_decide_eq_false_2 in Hstep.
Qed.

Lemma lambda__not_recognised : "lambda_" ∉ names_list.
Proof.
  rewrite names_list_elem. intros [H | [f H]]; [discriminate H |].
  destruct f; discriminate H.
Qed.

Lemma rename_Lambda_bad_key (kwargs : kwargs_t) (k : string) :
  k ∈ kwargs.*1 → k ∉ names_list →
  ∃ k', k' ∈ (rename_Lambda kwargs).*1 ∧ k' ∉ names_list.
Proof.
  intros Hin Hbad. unfold rename_Lambda.
  destruct (dict_lookup "Lambda" kwargs) as [v |] eqn:HL; [| by eauto].
  exists "lambda_". split; [| apply lambda__not_recognised].
  apply dec_stable. intros H. apply dict_lookup_None in H.
  by rewrite dict_lookup_setitem_eq in H.
Qed.

(** X5: no silent drops: when any key of [kwargs] is outside [names_list],
    the constructor raises, whatever the other pairs are. *)
Theorem psvm_init_unknown_key_raises (self : estimator) (kwargs : kwargs_t)
    (k : string) (Hin : k ∈ kwargs.*1) (Hbad : k ∉ names_list) :
  ∃ est e, __init__ self kwargs = (est, Err e).
Proof.
  destruct (rename_Lambda_bad_key kwargs k Hin Hbad) as (k' & Hin' & Hbad').
  unfold __init__. by eapply init_loop_bad_key.
Qed.

Lemma psvm_init_unknown_key_raises_witness :
  ∃ est e,
    __init__ (Estimator PNone ∅)
      [("gamma", PInt 1); ("nfolds", PInt 5); ("seed", PInt 3)] = (est, Err e).
Proof.
  apply (psvm_init_unknown_key_raises (Estimator PNone ∅)
           [("gamma", PInt 1); ("nfolds", PInt 5); ("seed", PInt 3)] "nfolds").
  - apply (bool_decide_unpack _). vm_compute. exact I.
  - apply (bool_decide_unpack _). vm_compute. exact I.
Defined.

Lemma init_step_id (self self' : estimator) (k : string) (v : pyval) :
  init_step self k v = Ok self' →
  _id self' = if String.eqb k "model_id" then v else _id self.
Proof.
  unfold init_step. destruct (String.eqb k "model_id").
  - by intros [= <-].
  - case_bool_decide; [| done]. unfold setattr.
    destruct (property_of_name k) as [f |]; [| by intros [= <-]].
    intros Hs. apply setter_stores in Hs. by subst self'.
Qed.

Lemma init_loop_id (self est : estimator) (items : kwargs_t) :
  NoDup items.*1 →
  init_loop self items = (est, Ok tt) →
  _id est = default (_id self) (dict_lookup "model_id" items).
Proof.
  revert self. induction items as [| [k0 v0] items IH]; intros self Hnd Hrun.
  - cbn in Hrun. by injection Hrun as <-.
  - cbn in Hnd, Hrun. apply NoDup_cons in Hnd as [Hk0 Hnd].
    destruct (init_step self k0 v0) as [self1 | e] eqn:Hstep; [| done].
    apply init_step_id in Hstep. rewrite (IH _ Hnd Hrun), Hstep. cbn.
    destruct (String.eqb_spec k0 "model_id") as [-> | _]; [| done].
    by rewrite (proj2 (dict_lookup_None _ _) Hk0).
Qed.

(** A construction that succeeds had no "Lambda" among its keys. *)
Lemma init_ok_no_Lambda (self est : estimator) (kwargs : kwargs_t) :
  __init__ self kwargs = (est, Ok tt) → rename_Lambda kwargs = kwargs.
Proof.
  intros Hok. unfold rename_Lambda.
  destruct (dict_lookup "Lambda" kwargs) as [v |] eqn:HL; [| done].
  exfalso.
  assert (Hin : "Lambda" ∈ kwargs.*1).
  { apply dec_stable. intros H. apply dict_lookup_None in H. congruence. }
  assert (Hbad : "Lambda" ∉ names_list).
  { rewrite names_list_elem. intros [H | [f H]]; [discriminate H |].
    destruct f; discriminate H. }
  destruct (rename_Lambda_bad_key kwargs _ Hin Hbad) as (k' & Hin' & Hbad').
  destruct (init_loop_bad_key {| _id := _id self; _parms := ∅ |} _ _ Hin' Hbad')
    as (est' & e & Hfail).
  unfold __init__ in Hok. congruence.
Qed.

(** X4: after a construction that succeeds, the parameter mapping is the
    keyword dict: every property reads the value supplied for its name, or
    [None] when the name was not supplied, and the identifier is the supplied
    "model_id", or the one the object had. *)
Theorem psvm_init_then_get (self est : estimator) (kwargs : kwargs_t)
    (Hwf : dict_wf kwargs) (Hok : __init__ self kwargs = (est, Ok tt)) :
  (∀ k, _parms est !! k = dict_lookup k kwargs) ∧
  (∀ f, getter f est = default PNone (dict_lookup (field_name f) kwargs)) ∧
  _id est = default (_id self) (dict_lookup "model_id" kwargs).
Proof.
  pose proof (init_ok_no_Lambda _ _ _ Hok) as Hren.
  unfold __init__ in Hok. rewrite Hren in Hok.
  destruct (init_loop_stored _ _ _ Hwf Hok) as [Hin Hout].
  assert (Hmap : ∀ k, _parms est !! k = dict_lookup k kwargs).
  { intros k. destruct (dict_lookup k kwargs) as [v |] eqn:Hk.
    - by apply Hin, dict_lookup_Some.
    - apply dict_lookup_None in Hk. by rewrite (Hout _ Hk). }
  split; [done |]. split.
  - intros f. rewrite getter_parms_get. unfold parms_get. by rewrite Hmap.
  - by rewrite (init_loop_id _ _ _ Hwf Hok).
Qed.

Lemma psvm_init_then_get_witness :
  let est := {| _id := PStr "svm_1";
                _parms := <["gamma" := PFloat (1 # 2)]>
                            (<["model_id" := PStr "svm_1"]> ∅) |} in
  (∀ k, _parms est !! k =
     dict_lookup k [("model_id", PStr "svm_1"); ("gamma", PFloat (1 # 2))]) ∧
  (∀ f, getter f est =
     default PNone
       (dict_lookup (field_name f)
          [("model_id", PStr "svm_1"); ("gamma", PFloat (1 # 2))])) ∧
  _id est = PStr "svm_1".
Proof.
  apply (psvm_init_then_get (Estimator PNone ∅) _
           [("model_id", PStr "svm_1"); ("gamma", PFloat (1 # 2))]).
  - unfold dict_wf. apply (bool_decide_unpack _). vm_compute. exact I.
  - reflexivity.
Defined.

Lemma init_loop_accepted (self est : estimator) (items : kwargs_t) :
  (∀ k v, _parms self !! k = Some v →
     k = "model_id" ∨ ∃ f, field_name f = k ∧ accepted f v = true) →
  init_loop self items = (est, Ok tt) →
  ∀ k v, _parms est !! k = Some v →
    k = "model_id" ∨ ∃ f, field_name f = k ∧ accepted f v = true.
Proof.
  revert self. induction items as [| [k0 v0] items IH]; intros self Hinv Hrun.
  - cbn in Hrun. by injection Hrun as <-.
  - cbn in Hrun.
    destruct (init_step self k0 v0) as [self1 | e] eqn:Hstep; [| done].
    apply (IH self1); [| done].
    pose proof (init_step_stores _ _ _ _ Hstep) as Hst. rewrite Hst.
    intros k v [[<- <-] | [Hne Hk]]%lookup_insert_Some; [| by apply Hinv].
    unfold init_step in Hstep.
    destruct (String.eqb_spec k0 "model_id") as [-> | Hid]; [by left |].
    case_bool_decide as Hin; [| done]. right.
    destruct (names_list_properties _ Hin Hid) as (f & <- & Hp).
    unfold setattr in Hstep. rewrite Hp in Hstep.
    exists f. split; [done |]. by eapply setter_ok_accepted.
Qed.

(** X6: after a construction that succeeds, every key of the parameter
    mapping is "model_id" or the name of a property, and the value stored
    for a property is [None] or of the type its setter checks; the value of
    "model_id" went in unchecked. *)
Theorem psvm_init_values_accepted (self est : estimator) (kwargs : kwargs_t)
    (Hok : __init__ self kwargs = (est, Ok tt)) :
  ∀ k v, _parms est !! k = Some v →
    k = "model_id" ∨ ∃ f, field_name f = k ∧ accepted f v = true.
Proof.
  unfold __init__ in Hok. eapply init_loop_accepted; [| exact Hok].
  cbn. intros k v H. by rewrite lookup_empty in H.
Qed.

Lemma psvm_init_values_accepted_witness :
  "seed" = "model_id" ∨
  ∃ f, field_name f = "seed" ∧ accepted f (PInt 3) = true.
Proof.
  apply (psvm_init_values_accepted (Estimator PNone ∅)
           {| _id := PInt 7;
              _parms := <["seed" := PInt 3]> (<["model_id" := PInt 7]> ∅) |}
           [("model_id", PInt 7); ("seed", PInt 3)] eq_refl
           "seed" (PInt 3)).
  reflexivity.
Defined.

(** X8: when "Lambda" is supplied (and "lambda_" is not), its pair is looked
    at last: all other pairs are applied in their order first, and unless one
    of them raises, the constructor raises the unknown-parameter error for
    "lambda_" with the value of "Lambda". *)
Theorem psvm_init_Lambda_last (self : estimator) (kwargs : kwargs_t) (v : pyval)
    (HL : dict_lookup "Lambda" kwargs = Some v)
    (Hl : "lambda_" ∉ kwargs.*1) :
  __init__ self kwargs =
    match init_loop {| _id := _id self; _parms := ∅ |}
            (dict_remove "Lambda" kwargs) with
    | (est, Ok _) => (est, Err (H2OValueError "lambda_" v))
    | (est, Err e) => (est, Err e)
    end.
Proof.
  unfold __init__, rename_Lambda. rewrite HL.
  rewrite dict_setitem_new by (intros H; apply Hl; eapply dict_remove_keys, H).
  rewrite init_loop_app.
  destruct (init_loop _ (dict_remove "Lambda" kwargs)) as [est [[] | e]];
    [| done].
  cbn. unfold init_step. cbn.
  by rewrite (bool_decide_eq_false_2 _ lambda__not_recognised).
Qed.

Lemma psvm_init_Lambda_last_witness :
  __init__ (Estimator PNone ∅) [("Lambda", PInt 5); ("seed", PStr "x")] =
    (Estimator PNone ∅, Err (H2OTypeError "seed" [TNone; TInt] (PStr "x"))) ∧
  __init__ (Estimator PNone ∅) [("Lambda", PInt 5); ("seed", PInt 3)] =
    (parms_set (Estimator PNone ∅) "seed" (PInt 3),
     Err (H2OValueError "lambda_" (PInt 5))).
Proof.
  split.
  - rewrite (psvm_init_Lambda_last (Estimator PNone ∅)
               [("Lambda", PInt 5); ("seed", PStr "x")] (PInt 5)).
    + reflexivity.
    + reflexivity.
    + apply (bool_decide_unpack _). vm_compute. exact I.
  - rewrite (psvm_init_Lambda_last (Estimator PNone ∅)
               [("Lambda", PInt 5); ("seed", PInt 3)] (PInt 5)).
    + reflexivity.
    + reflexivity.
    + apply (bool_decide_unpack _). vm_compute. exact I.
Defined.

End psvm_construction.

(** * Further properties of the importance request and of the plot *)

Section varimp_more.
Import permutation_varimp.

(** X9: when pandas cannot be used, [use_pandas] has no effect: asking for a
    pandas table returns the lazy frame, without an error and without a
    materialisation, exactly as not asking for it does. *)
Theorem permutation_varimp_without_pandas (env : environment)
    (model frame : pyval) (metric : pyval) (log : list call)
    (Hpd : can_use_pandas env = false) :
  permutation_varimp env model frame true metric log =
    permutation_varimp env model frame false metric log ∧
  ∀ e, as_list e ∈ (permutation_varimp env model frame true metric log).1 →
       as_list e ∈ log.
Proof.
  unfold permutation_varimp. rewrite Hpd. cbn. split; [done |].
  intros e. case_bool_decide as Hty; cbn; [done |].
  intros [Hin | Hin]%elem_of_app; [done |].
  apply list_elem_of_singleton in Hin. discriminate Hin.
Qed.

Lemma permutation_varimp_without_pandas_witness :
  permutation_varimp (Environment false (λ _, DataFrame [] []))
      (PObj (Base "H2OGradientBoostingEstimator") "gbm_1")
      (PObj H2OFrame "py_1") true (PStr "mse") [] =
    ([H2OFrame_expr
        (ExprNode "PermutationVarImp"
           [PObj (Base "H2OGradientBoostingEstimator") "gbm_1";
            PObj H2OFrame "py_1"; PStr "mse"])],
     Ok (LazyFrame
           (ExprNode "PermutationVarImp"
              [PObj (Base "H2OGradientBoostingEstimator") "gbm_1";
               PObj H2OFrame "py_1"; PStr "mse"]))).
Proof.
  rewrite (proj1 (permutation_varimp_without_pandas
             (Environment false (λ _, DataFrame [] []))
             (PObj (Base "H2OGradientBoostingEstimator") "gbm_1")
             (PObj H2OFrame "py_1") (PStr "mse") [] eq_refl)).
  reflexivity.
Defined.

(** X10: whatever the table, the backend and the flags, the chart never has
    more than ten bars. *)
Theorem plot_at_most_ten_bars (_get_matplotlib_pyplot : bool → bool)
    (importance : dataframe) (algo_name metric : string) (server : bool) :
  (length (bars (plot_permutation_var_imp _get_matplotlib_pyplot importance
                   algo_name metric server).1) ≤ 10)%nat.
Proof.
  unfold plot_permutation_var_imp.
  destruct (collect importance (columns importance)) as [vals | e];
    [| cbn; lia].
  destruct (_get_matplotlib_pyplot server); cbn [negb]; [| cbn; lia].
  destruct (py_min _); [destruct (py_max _); [destruct server |] |];
    cbn [negb app fst bars]; rewrite length_zip, !length_take; lia.
Qed.

Lemma collect_no_features (t : dataframe) (cols : list string) :
  Forall (λ c, c = "importance") cols → collect t cols = Ok [].
Proof.
  induction 1 as [| c cols -> _ IH]; [done |]. cbn [collect].
  by rewrite String.eqb_refl.
Qed.

(** X11: a table without feature columns (no column, or only columns named
    "importance") makes the plot raise the [ValueError] of [min] on an empty
    sequence, after the figure, an empty bar chart and the ticks were sent to
    the backend; no axis limit, title or [show] follows. *)
Theorem plot_no_features_raises (_get_matplotlib_pyplot : bool → bool)
    (importance : dataframe) (algo_name metric : string) (server : bool)
    (Hcols : Forall (λ c, c = "importance") (columns importance))
    (Hplt : _get_matplotlib_pyplot server = true) :
  plot_permutation_var_imp _get_matplotlib_pyplot importance algo_name metric
    server =
    ([subplots 1 1 (14, 10);
      barh [] [] "center" (8 # 10) "#1F77B4" "none";
      spine_set_visible "right" false;
      spine_set_visible "top" false;
      spine_set_color "bottom" "#7B7B7B";
      spine_set_color "left" "#7B7B7B";
      yaxis_set_ticks_position "left";
      xaxis_set_ticks_position "bottom";
      yticks [] []],
     Err (ValueError "min() arg is an empty sequence")).
Proof.
  unfold plot_permutation_var_imp.
  by rewrite (collect_no_features _ _ Hcols), Hplt.
Qed.

Lemma plot_no_features_raises_witness :
  (plot_permutation_var_imp (λ _, true)
     (DataFrame ["importance"]
        [[CStr "Relative Importance"]; [CStr "Scaled Importance"];
         [CStr "Percentage"]]) "gbm" "mse" true).2 =
    Err (ValueError "min() arg is an empty sequence").
Proof.
  rewrite (plot_no_features_raises (λ _, true)
             (DataFrame ["importance"]
                [[CStr "Relative Importance"]; [CStr "Scaled Importance"];
                 [CStr "Percentage"]]) "gbm" "mse" true).
  - reflexivity.
  - repeat constructor.
  - reflexivity.
Defined.

Lemma collect_missing_row (t : dataframe) (cols : list string) :
  rows t !! 2%nat = None →
  Exists (λ c, c ≠ "importance") cols →
  collect t cols = Err (KeyError "2").
Proof.
  intros Hrow. induction cols as [| c cols IH]; intros Hex.
  - by apply Exists_nil in Hex.
  - cbn [collect]. destruct (String.eqb_spec c "importance") as [-> | Hne].
    + apply Exists_cons in Hex as [H | H]; [done | by apply IH].
    + unfold loc. by rewrite Hrow.
Qed.

(** X12: a table with fewer than three rows and at least one column not named
    "importance" makes the plot raise the [KeyError] of the row lookup before
    the backend is asked for: nothing is drawn, with or without a backend. *)
Theorem plot_missing_row_raises (_get_matplotlib_pyplot : bool → bool)
    (importance : dataframe) (algo_name metric : string) (server : bool)
    (Hrow : rows importance !! 2%nat = None)
    (Hfeat : Exists (λ c, c ≠ "importance") (columns importance)) :
  plot_permutation_var_imp _get_matplotlib_pyplot importance algo_name metric
    server = ([], Err (KeyError "2")).
Proof.
  unfold plot_permutation_var_imp.
  by rewrite (collect_missing_row _ _ Hrow Hfeat).
Qed.

Lemma plot_missing_row_raises_witness :
  plot_permutation_var_imp (λ _, false)
    (DataFrame ["importance"; "f1"]
       [[CStr "Relative Importance"; CNum 4];
        [CStr "Scaled Importance"; CNum 1]]) "gbm" "mse" false =
    ([], Err (KeyError "2")).
Proof.
  apply plot_missing_row_raises.
  - reflexivity.
  - apply Exists_cons_tl, Exists_cons_hd. discriminate.
Defined.

(** X13: [show] is sent to the backend exactly when the plot is not in
    server mode, a backend was handed out and the plot did not raise; in
    server mode the chart is never shown. *)
Theorem plot_show_iff (_get_matplotlib_pyplot : bool → bool)
    (importance : dataframe) (algo_name metric : string) (server : bool) :
  show ∈ (plot_permutation_var_imp _get_matplotlib_pyplot importance
            algo_name metric server).1 ↔
  server = false ∧ _get_matplotlib_pyplot server = true ∧
  (plot_permutation_var_imp _get_matplotlib_pyplot importance algo_name
     metric server).2 = Ok tt.
Proof.
  unfold plot_permutation_var_imp.
  destruct (collect importance (columns importance)) as [vals | e].
  2: { cbn. split; [intros H; by apply elem_of_nil in H | by intros (_ & _ & ?)]. }
  destruct (_get_matplotlib_pyplot server) eqn:Hplt; cbn [negb].
  2: { cbn. split; [intros H; by apply elem_of_nil in H | by intros (_ & ? & _)]. }
  destruct (py_min _); [destruct (py_max _); [destruct server |] |];
    cbn [negb app fst snd];
    (split;
     [ intros H; repeat (apply elem_of_cons in H as [H | H]; [discriminate H |]);
       try (by apply elem_of_nil in H)
     | intros (? & ? & ?); try discriminate ]).
  - done.
  - repeat first [ by apply list_elem_of_here | apply list_elem_of_further ].
Qed.

(** X14: on a table whose first column is the label column named
    "importance", followed by at least one feature column, the feature names
    distinct and none of them "importance", each with a number at row index 2,
    and with a chart backend, the plot returns without raising after these
    draw commands: the first min(n, 10) feature columns in the table's column
    order, bar i with the value and the tick label of feature column i at
    height n - 1 - i, and the axis from n - k - 1 to n. *)
Theorem plot_first_ten_in_column_order (_get_matplotlib_pyplot : bool → bool)
    (importance : dataframe) (algo_name metric : string) (server : bool)
    (feats : list string) (lbl : string) (vals : list Q)
    (Hcols : columns importance = "importance" :: feats)
    (Himp : "importance" ∉ feats) (Hnd : NoDup feats) (Hne : feats ≠ [])
    (Hrow : rows importance !! 2%nat = Some (CStr lbl :: (CNum <$> vals)))
    (Hlen : length vals = length feats)
    (Hplt : _get_matplotlib_pyplot server = true) :
  let n := length feats in
  let k := (n `min` 10)%nat in
  let pos := top_positions n k in
  plot_permutation_var_imp _get_matplotlib_pyplot importance algo_name metric
    server =
    ([subplots 1 1 (14, 10);
      barh pos (CNum <$> take k vals) "center" (8 # 10) "#1F77B4" "none";
      spine_set_visible "right" false;
      spine_set_visible "top" false;
      spine_set_color "bottom" "#7B7B7B";
      spine_set_color "left" "#7B7B7B";
      yaxis_set_ticks_position "left";
      xaxis_set_ticks_position "bottom";
      yticks pos (take k feats);
      ylim (Z.of_nat n - Z.of_nat k - 1) (Z.of_nat n);
      title ("Permutation Variable Importance: " +:+ algo_name
             +:+ " (" +:+ metric +:+ ")") 20]
     ++ (if server then [] else [show]),
     Ok tt).
Proof.
  intros n k pos.
  assert (Hn : (0 < n)%nat) by (subst n; destruct feats; [done | cbn; lia]).
  unfold plot_permutation_var_imp.
  rewrite (collect_features _ _ _ _ Hcols Himp Hnd Hrow Hlen), Hplt.
  rewrite length_fmap, Hlen. fold n k. cbn [negb].
  rewrite take_reversed_range by lia. fold pos.
  unfold pos. rewrite py_min_top_positions, py_max_top_positions by lia.
  rewrite Hcols. cbn [drop]. rewrite fmap_take.
  replace (Z.of_nat n - 1 + 1) with (Z.of_nat n) by lia.
  by destruct server.
Qed.

Lemma plot_first_ten_in_column_order_witness :
  let feats := ["f1"; "f2"; "f3"; "f4"; "f5"; "f6"; "f7"; "f8"; "f9"; "f10";
                "f11"; "f12"] in
  let vals := [30; 20; 12; 9; 8; 6; 5; 4; 3; 1; 1; 1]%Q in
  let t := DataFrame ("importance" :: feats)
             [CStr "Relative Importance" :: (CNum <$> vals);
              CStr "Scaled Importance" :: (CNum <$> vals);
              CStr "Percentage" :: (CNum <$> vals)] in
  (plot_permutation_var_imp (λ _, true) t "gbm" "mse" true).2 = Ok tt ∧
  bars (plot_permutation_var_imp (λ _, true) t "gbm" "mse" true).1 =
    [(11, CNum 30); (10, CNum 20); (9, CNum 12); (8, CNum 9); (7, CNum 8);
     (6, CNum 6); (5, CNum 5); (4, CNum 4); (3, CNum 3); (2, CNum 1)].
Proof.
  intros feats vals t.
  rewrite (plot_first_ten_in_column_order (λ _, true) t "gbm" "mse" true
             feats "Percentage" vals).
  - split; reflexivity.
  - reflexivity.
  - apply (bool_decide_unpack _). vm_compute. exact I.
  - apply (bool_decide_unpack _). vm_compute. exact I.
  - discriminate.
  - reflexivity.
  - reflexivity.
  - reflexivity.
Defined.

Lemma zip_partner {A B} (l1 : list A) (l2 : list B) (y : B) :
  (length l2 ≤ length l1)%nat → y ∈ l2 → ∃ p, (p, y) ∈ zip l1 l2.
Proof.
  revert l1. induction l2 as [| b l2 IH]; intros l1 Hlen Hy.
  - by apply elem_of_nil in Hy.
  - destruct l1 as [| a l1]; cbn in Hlen; [lia |].
    apply elem_of_cons in Hy as [-> | Hy].
    + exists a. apply list_elem_of_here.
    + destruct (IH l1 ltac:(lia) Hy) as [p Hp]. exists p.
      by apply list_elem_of_further.
Qed.

(** The bar drawn highest is the first one; it is the largest exactly when
    no drawn value exceeds it. *)
Lemma largest_bar_at_top_first (n k : nat) (vals : list Q) :
  largest_bar_at_top (zip (top_positions n k) (CNum <$> take k vals)) = true ↔
  ∀ v0 y, vals !! 0%nat = Some v0 → y ∈ take k vals → (y <= v0)%Q.
Proof.
  destruct k as [| k].
  { split; [| done]. intros _ v0 y _ Hy. by apply elem_of_nil in Hy. }
  destruct vals as [| v0 vals].
  { split; [| by destruct (top_positions n (S k))].
    intros _ v y Hv. by rewrite lookup_nil in Hv. }
  destruct (top_positions_cons n (S k) ltac:(lia)) as (l & Hpos & Hall).
  assert (Hl : length l = k).
  { apply (f_equal length) in Hpos. unfold top_positions in Hpos.
    rewrite length_fmap, length_seq in Hpos. cbn in Hpos. lia. }
  rewrite Hpos. cbn [take fmap list_fmap zip zip_with].
  unfold largest_bar_at_top. rewrite top_bar_first.
  2: { apply Forall_forall. intros [p w] Hin. apply elem_of_zip_l in Hin.
       rewrite Forall_forall in Hall. by apply Hall. }
  cbn [forallb snd]. rewrite andb_true_iff, forallb_forall. split.
  - intros [_ Hle] v y [= <-] [-> | Hy]%elem_of_cons; [apply Qle_refl |].
    destruct (zip_partner l (CNum <$> take k vals) (CNum y)) as [p Hp].
    + rewrite length_fmap, length_take. lia.
    + by apply list_elem_of_fmap_2.
    + apply list_elem_of_In in Hp. apply Hle in Hp. cbn in Hp.
      by apply Qle_bool_iff.
  - intros Hle. split; [apply Qle_bool_iff, Qle_refl |].
    intros [p w] Hin. apply list_elem_of_In in Hin.
    apply elem_of_zip_r in Hin. cbn in *.
    apply list_elem_of_fmap in Hin as (y & -> & Hy).
    apply Qle_bool_iff. apply (Hle v0 y eq_refl). by apply list_elem_of_further.
Qed.

(** X16: on such a table the largest-valued bar is the one at the top
    exactly when none of the plotted values (the first min(n, 10)) exceeds
    the value of the first feature column; the values the plot leaves out
    play no part. *)
Theorem plot_largest_bar_at_top_iff (_get_matplotlib_pyplot : bool → bool)
    (importance : dataframe) (algo_name metric : string) (server : bool)
    (feats : list string) (lbl : string) (vals : list Q)
    (Hcols : columns importance = "importance" :: feats)
    (Himp : "importance" ∉ feats) (Hnd : NoDup feats) (Hne : feats ≠ [])
    (Hrow : rows importance !! 2%nat = Some (CStr lbl :: (CNum <$> vals)))
    (Hlen : length vals = length feats)
    (Hplt : _get_matplotlib_pyplot server = true) :
  largest_bar_at_top
    (bars (plot_permutation_var_imp _get_matplotlib_pyplot importance
             algo_name metric server).1) = true ↔
  ∀ v0 y, vals !! 0%nat = Some v0 →
    y ∈ take (length feats `min` 10) vals → (y <= v0)%Q.
Proof.
  assert (Hn : (0 < length feats)%nat) by (destruct feats; [done | cbn; lia]).
  unfold plot_permutation_var_imp.
  rewrite (collect_features _ _ _ _ Hcols Himp Hnd Hrow Hlen), Hplt.
  rewrite length_fmap, Hlen. cbn [negb].
  rewrite take_reversed_range by lia.
  rewrite py_min_top_positions, py_max_top_positions by lia.
  rewrite <- fmap_take.
  destruct server; cbn [negb app fst bars]; apply largest_bar_at_top_first.
Qed.

Lemma plot_largest_bar_at_top_iff_witness :
  let feats := ["f1"; "f2"; "f3"; "f4"; "f5"; "f6"; "f7"; "f8"; "f9"; "f10";
                "f11"] in
  let vals := [30; 20; 12; 9; 8; 6; 5; 4; 3; 1; 40]%Q in
  let t := DataFrame ("importance" :: feats)
             [CStr "Relative Importance" :: (CNum <$> vals);
              CStr "Scaled Importance" :: (CNum <$> vals);
              CStr "Percentage" :: (CNum <$> vals)] in
  largest_bar_at_top
    (bars (plot_permutation_var_imp (λ _, true) t "gbm" "mse" true).1) = true.
Proof.
  intros feats vals t.
  apply (plot_largest_bar_at_top_iff (λ _, true) t "gbm" "mse" true
           feats "Percentage" vals).
  - reflexivity.
  - apply (bool_decide_unpack _). vm_compute. exact I.
  - apply (bool_decide_unpack _). vm_compute. exact I.
  - discriminate.
  - reflexivity.
  - reflexivity.
  - reflexivity.
  - intros v0 y [= <-] Hy. cbn in Hy.
    repeat (apply elem_of_cons in Hy as [-> | Hy]; [by apply Qle_bool_iff |]).
    by apply elem_of_nil in Hy.
Defined.

End varimp_more.
